(** * FasterSuperClusterAlgorithm: change detection around a clustering index

    A shallow embedding of [algorithms/fastersupercluster.ts] (both revisions
    of the file found in the repository) and the properties of its
    [calculate] method: when the index is reloaded, when it is queried again,
    and when the reported [changed] flag is raised.

    Conventions of the embedding.
    - A JavaScript [number] is an exact rational in canonical form ([Qc]);
      [===] on numbers is then Leibniz equality.  NaN, infinities and rounding
      error of doubles are outside the model.
    - The host objects ([google.maps.Marker], [google.maps.Map]) are records of
      what the algorithm reads from them.  Markers are values: the host keeps
      a marker's position stable while it is clustered.
    - The external index ([supercluster]) is a record of its query functions,
      each a function of the point set last given to [load].
    - Two bookkeeping fields of the engine state, [trace] and [next_ref],
      record the calls issued to the index and the identity of the arrays
      that [cluster] allocates. *)

From Stdlib Require Import ZArith QArith Qcanon Qround List Bool Lia.
Import ListNotations.

Set Implicit Arguments.
Local Open Scope nat_scope.

(** ** Numbers *)

Definition number : Set := Qc.

Definition num (q : Q) : number := Q2Qc q.

(** [a === b] on numbers. *)
Definition number_eqb (a b : number) : bool := Qeq_bool a b.

(** [a > b] on numbers. *)
Definition number_gtb (a b : number) : bool := negb (Qle_bool a b).

(** [Math.round]: nearest integer, halves towards plus infinity. *)
Definition Math_round (x : number) : Z := Qfloor (x + (1 # 2))%Q.

(** [Math.min] of two numbers. *)
Definition Math_min (a b : number) : number := if Qle_bool a b then a else b.

Definition number_of_Z (z : Z) : number := num (inject_Z z).

(** ** Host objects *)

Record LatLng : Set := { lat : number; lng : number }.

(** A marker: its position and [uid], which stands for everything else a deep
    comparison of two marker objects looks at. *)
Record Marker : Set := { uid : nat; getPosition : LatLng }.

Record LatLngBoundsLiteral : Set :=
  { west : number; south : number; east : number; north : number }.

Record GoogleMap : Set := { getZoom : number; getBounds : LatLngBoundsLiteral }.

(** [type BoundingBox = [number, number, number, number]] *)
Definition BoundingBox : Set := (number * number * number * number)%type.

Record AlgorithmInput : Set := { input_markers : list Marker; input_map : GoogleMap }.

(** ** The index and its features *)

(** What [load] receives: [{ geometry: { coordinates: [lng, lat] },
    properties: { marker } }]. *)
Record PointFeature : Set :=
  { point_coordinates : number * number; point_marker : Marker }.

(** Properties of a query result: those of a loaded point, or those of an
    aggregate, which alone carry [cluster: true]. *)
Inductive Properties : Set :=
| PointProperties (marker : Marker)
| ClusterProperties (cluster_id : Z) (point_count : nat).

Record Feature : Set := { coordinates : number * number; properties : Properties }.

Definition properties_cluster (p : Properties) : bool :=
  match p with
  | ClusterProperties _ _ => true
  | PointProperties _ => false
  end.

(** The [limit] argument of [getLeaves]. *)
Inductive Limit : Set := Finite (n : nat) | Infinity.

Record SuperCluster : Type := {
  points : list PointFeature;
  query_getClusters : list PointFeature -> BoundingBox -> Z -> list Feature;
  query_getLeaves : list PointFeature -> Z -> Limit -> list PointFeature;
  query_getClusterExpansionZoom : list PointFeature -> Z -> number
}.

Definition load (sc : SuperCluster) (pts : list PointFeature) : SuperCluster :=
  {| points := pts;
     query_getClusters := query_getClusters sc;
     query_getLeaves := query_getLeaves sc;
     query_getClusterExpansionZoom := query_getClusterExpansionZoom sc |}.

Definition getClusters (sc : SuperCluster) (bbox : BoundingBox) (zoom : Z) : list Feature :=
  query_getClusters sc (points sc) bbox zoom.

Definition getLeaves (sc : SuperCluster) (clusterId : Z) (limit : Limit) : list PointFeature :=
  query_getLeaves sc (points sc) clusterId limit.

Definition getClusterExpansionZoom (sc : SuperCluster) (clusterId : Z) : number :=
  query_getClusterExpansionZoom sc (points sc) clusterId.

(** The calls the engine issues to the index. *)
Inductive IndexCall : Set :=
| CallLoad (pts : list PointFeature)
| CallGetClusters (bbox : BoundingBox) (zoom : Z)
| CallGetLeaves (clusterId : Z).

Definition is_load (c : IndexCall) : bool :=
  match c with CallLoad _ => true | _ => false end.

(** ** Clusters *)

(** Modelled from the spec: the base class [Cluster] of [../cluster], which is
    not among the sources.  It is constructed with a position and the member
    markers, and its [count] is the number of member markers.  [id] is the
    field [SuperClusterCluster] adds, undefined ([None]) for a leaf. *)
Record Cluster : Set := { id : option Z; markers : list Marker; position : LatLng }.

(** Modelled from the spec: [Cluster.count], the number of member markers. *)
Definition count (c : Cluster) : nat := length (markers c).

(** [`${this.position} ${this.count}`].  The string is determined by the
    position and the count and by nothing else of the cluster; it is kept as
    that pair, the host printing different coordinates differently. *)
Definition summary (c : Cluster) : LatLng * nat := (position c, count c).

(** [get expansionZoom] of [SuperClusterCluster], for a cluster that holds the
    index [sc] it came from. *)
Definition expansionZoom (sc : SuperCluster) (c : Cluster) : option number :=
  match id c with
  | Some i => Some (Math_min (getClusterExpansionZoom sc i) (number_of_Z 20))
  | None => None
  end.

(** An array of clusters together with its identity as an object. *)
Record ClusterArray : Set := { array_ref : nat; items : list Cluster }.

(** ** Equality tests of [fast-equals] *)

Definition LatLng_eqb (a b : LatLng) : bool :=
  number_eqb (lat a) (lat b) && number_eqb (lng a) (lng b).

Definition Marker_eqb (a b : Marker) : bool :=
  Nat.eqb (uid a) (uid b) && LatLng_eqb (getPosition a) (getPosition b).

Fixpoint list_eqb {A : Type} (eqb : A -> A -> bool) (xs ys : list A) : bool :=
  match xs, ys with
  | [], [] => true
  | x :: xs', y :: ys' => eqb x y && list_eqb eqb xs' ys'
  | _, _ => false
  end.

(** [deepEqual(input.markers, this.markers)]; the stored list is [undefined]
    until the first call. *)
Definition deepEqual_markers (incoming : list Marker) (stored : option (list Marker)) : bool :=
  match stored with
  | Some ms => list_eqb Marker_eqb incoming ms
  | None => false
  end.

Record ViewState : Set := { zoom : option number; boundingBox : BoundingBox }.

Definition BoundingBox_eqb (a b : BoundingBox) : bool :=
  let '(w1, s1, e1, n1) := a in
  let '(w2, s2, e2, n2) := b in
  number_eqb w1 w2 && number_eqb s1 s2 && number_eqb e1 e2 && number_eqb n1 n2.

Definition zoom_eqb (a b : option number) : bool :=
  match a, b with
  | Some x, Some y => number_eqb x y
  | None, None => true
  | _, _ => false
  end.

(** [deepEqual(this.state, state)] *)
Definition deepEqual_state (a b : ViewState) : bool :=
  zoom_eqb (zoom a) (zoom b) && BoundingBox_eqb (boundingBox a) (boundingBox b).

Definition summary_eqb (a b : LatLng * nat) : bool :=
  LatLng_eqb (fst a) (fst b) && Nat.eqb (snd a) (snd b).

(** [shallowEqual] of two arrays of summaries: same length and [===] at
    every index. *)
Definition shallowEqual (xs ys : list (LatLng * nat)) : bool := list_eqb summary_eqb xs ys.

(** [z > maxZoom] where [z] may be [null], which the comparison reads as 0. *)
Definition zoom_gtb (z : option number) (maxZoom : number) : bool :=
  match z with
  | Some x => number_gtb x maxZoom
  | None => number_gtb (number_of_Z 0) maxZoom
  end.

(** ** The algorithm *)

Record FasterSuperClusterAlgorithm : Type := {
  maxZoom : number;
  superCluster : SuperCluster;
  this_markers : option (list Marker);
  this_clusters : option ClusterArray;
  this_state : ViewState;
  trace : list IndexCall;
  next_ref : nat
}.

(** The constructor, given the configured maximum zoom and an index built
    from the options. *)
Definition new_FasterSuperClusterAlgorithm (mz : number) (sc : SuperCluster)
  : FasterSuperClusterAlgorithm :=
  {| maxZoom := mz;
     superCluster := load sc [];
     this_markers := None;
     this_clusters := None;
     this_state := {| zoom := None;
                      boundingBox := (number_of_Z (-180), number_of_Z (-90),
                                      number_of_Z 180, number_of_Z 90) |};
     trace := [];
     next_ref := 0 |}.

Definition getBoundingBox (m : GoogleMap) : BoundingBox :=
  let bounds := getBounds m in
  (west bounds, south bounds, east bounds, north bounds).

(** The point record a marker is projected to. *)
Definition toPoint (marker : Marker) : PointFeature :=
  {| point_coordinates := (lng (getPosition marker), lat (getPosition marker));
     point_marker := marker |}.

Definition transformCluster (this : FasterSuperClusterAlgorithm) (f : Feature) : Cluster :=
  let '(lng_, lat_) := coordinates f in
  match properties f with
  | ClusterProperties cluster_id _ =>
      {| id := Some cluster_id;
         markers := map point_marker (getLeaves (superCluster this) cluster_id Infinity);
         position := {| lat := lat_; lng := lng_ |} |}
  | PointProperties marker =>
      {| id := None; markers := [marker]; position := getPosition marker |}
  end.

(** [cluster({ map })] *)
Definition cluster (this : FasterSuperClusterAlgorithm) (input : AlgorithmInput) : list Cluster :=
  map (transformCluster this)
      (getClusters (superCluster this) (getBoundingBox (input_map input))
                   (Math_round (getZoom (input_map input)))).

(** The index calls one run of [cluster] issues. *)
Definition leaf_lookups (fs : list Feature) : list IndexCall :=
  flat_map (fun f => match properties f with
                     | ClusterProperties cluster_id _ => [CallGetLeaves cluster_id]
                     | PointProperties _ => []
                     end) fs.

Definition cluster_calls (this : FasterSuperClusterAlgorithm) (input : AlgorithmInput)
  : list IndexCall :=
  let bbox := getBoundingBox (input_map input) in
  let z := Math_round (getZoom (input_map input)) in
  CallGetClusters bbox z :: leaf_lookups (getClusters (superCluster this) bbox z).

(** [getExpansionZoom(cluster)] of the algorithm (the revision in which the
    lookup is a method of the algorithm rather than of the cluster). *)
Definition getExpansionZoom (this : FasterSuperClusterAlgorithm) (c : Cluster) : option number :=
  match id c with
  | Some i => Some (Math_min (getClusterExpansionZoom (superCluster this) i) (number_of_Z 20))
  | None => None
  end.

Record AlgorithmOutput : Set := { clusters : option ClusterArray; changed : bool }.

(** Lines [if (!deepEqual(input.markers, this.markers)) { ... load ... }]:
    the flag and the state after them. *)
Definition syncMarkers (this : FasterSuperClusterAlgorithm) (input : AlgorithmInput)
  : bool * FasterSuperClusterAlgorithm :=
  if negb (deepEqual_markers (input_markers input) (this_markers this)) then
    let copy := input_markers input in
    let pts := map toPoint copy in
    (true,
     {| maxZoom := maxZoom this;
        superCluster := load (superCluster this) pts;
        this_markers := Some copy;
        this_clusters := this_clusters this;
        this_state := this_state this;
        trace := trace this ++ [CallLoad pts];
        next_ref := next_ref this |})
  else (false, this).

(** [const state = { zoom: input.map.getZoom(), boundingBox: ... }] *)
Definition snapshot (input : AlgorithmInput) : ViewState :=
  {| zoom := Some (getZoom (input_map input));
     boundingBox := getBoundingBox (input_map input) |}.

(** Lines [if (!changed) { ... }]: the flag after the viewport comparison. *)
Definition viewportCheck (this : FasterSuperClusterAlgorithm) (state : ViewState)
                         (changed : bool) : bool :=
  if negb changed then
    if zoom_gtb (zoom (this_state this)) (maxZoom this)
       && zoom_gtb (zoom state) (maxZoom this)
    then changed
    else changed || negb (deepEqual_state (this_state this) state)
  else changed.

Definition set_state (this : FasterSuperClusterAlgorithm) (state : ViewState)
  : FasterSuperClusterAlgorithm :=
  {| maxZoom := maxZoom this;
     superCluster := superCluster this;
     this_markers := this_markers this;
     this_clusters := this_clusters this;
     this_state := state;
     trace := trace this;
     next_ref := next_ref this |}.

(** The value of [changed] when the test [if (changed)] of the recompute
    gate is reached. *)
Definition changedAtGate (this : FasterSuperClusterAlgorithm) (input : AlgorithmInput) : bool :=
  let '(changed, this1) := syncMarkers this input in
  viewportCheck this1 (snapshot input) changed.

(** The body of [if (changed) { ... }].  The guard [clusters && this.clusters]
    tests that both arrays are defined: an array is truthy whatever its
    length, and only a field never assigned ([undefined]) is not. *)
Definition recompute (this : FasterSuperClusterAlgorithm) (input : AlgorithmInput)
  : bool * FasterSuperClusterAlgorithm :=
  let fresh := {| array_ref := next_ref this; items := cluster this input |} in
  let changed :=
    match Some fresh, this_clusters this with
    | Some new, Some old =>
        if shallowEqual (map summary (items new)) (map summary (items old))
        then false else true
    | _, _ => true
    end in
  (changed,
   {| maxZoom := maxZoom this;
      superCluster := superCluster this;
      this_markers := this_markers this;
      this_clusters := Some fresh;
      this_state := this_state this;
      trace := trace this ++ cluster_calls this input;
      next_ref := S (next_ref this) |}).

Definition calculate (this : FasterSuperClusterAlgorithm) (input : AlgorithmInput)
  : AlgorithmOutput * FasterSuperClusterAlgorithm :=
  let '(changed, this1) := syncMarkers this input in
  let state := snapshot input in
  let changed := viewportCheck this1 state changed in
  let this2 := set_state this1 state in
  let '(changed, this3) :=
    if changed then recompute this2 input else (changed, this2) in
  ({| clusters := this_clusters this3; changed := changed |}, this3).

(** A sequence of calls on one engine; the outputs in call order. *)
Fixpoint run (this : FasterSuperClusterAlgorithm) (inputs : list AlgorithmInput)
  : list AlgorithmOutput * FasterSuperClusterAlgorithm :=
  match inputs with
  | [] => ([], this)
  | input :: rest =>
      let '(out, this') := calculate this input in
      let '(outs, this'') := run this' rest in
      (out :: outs, this'')
  end.

(** The states an engine can be in: the constructed one and those reached
    by calls to [calculate]. *)
Inductive reachable (mz : number) (sc : SuperCluster) : FasterSuperClusterAlgorithm -> Prop :=
| reachable_new : reachable mz sc (new_FasterSuperClusterAlgorithm mz sc)
| reachable_calculate this input :
    reachable mz sc this -> reachable mz sc (snd (calculate this input)).

(** ** Vocabulary of the statements *)

(** The index calls one call of [calculate] adds to the trace. *)
Definition calls_issued (this : FasterSuperClusterAlgorithm) (input : AlgorithmInput)
  : list IndexCall :=
  skipn (length (trace this)) (trace (snd (calculate this input))).

Definition is_getClusters (c : IndexCall) : bool :=
  match c with CallGetClusters _ _ => true | _ => false end.

(** The same markers under another viewport. *)
Definition with_map (input : AlgorithmInput) (m : GoogleMap) : AlgorithmInput :=
  {| input_markers := input_markers input; input_map := m |}.

(** The stored marker list, empty while the field is [undefined]. *)
Definition stored_markers (this : FasterSuperClusterAlgorithm) : list Marker :=
  match this_markers this with Some ms => ms | None => [] end.

(** [sc'] is the index [sc], possibly with other points loaded. *)
Definition same_queries (sc sc' : SuperCluster) : Prop :=
  query_getClusters sc' = query_getClusters sc /\
  query_getLeaves sc' = query_getLeaves sc /\
  query_getClusterExpansionZoom sc' = query_getClusterExpansionZoom sc.

(** What holds of every state of an engine constructed with [mz] and [sc]. *)
Record well_formed (mz : number) (sc : SuperCluster) (this : FasterSuperClusterAlgorithm)
  : Prop := {
  wf_maxZoom : maxZoom this = mz;
  wf_queries : same_queries sc (superCluster this);
  wf_in_sync : points (superCluster this) = map toPoint (stored_markers this);
  wf_clusters : this_markers this <> None -> this_clusters this <> None;
  wf_refs : forall a, this_clusters this = Some a -> array_ref a < next_ref this
}.

(** The engine state after a history of calls on a new engine. *)
Definition started (mz : number) (sc : SuperCluster) (history : list AlgorithmInput)
  : FasterSuperClusterAlgorithm :=
  snd (run (new_FasterSuperClusterAlgorithm mz sc) history).

(** The leaf cluster of a marker. *)
Definition leaf (marker : Marker) : Cluster :=
  {| id := None; markers := [marker]; position := getPosition marker |}.

(** A loaded point as the index returns it in a query result. *)
Definition asFeature (p : PointFeature) : Feature :=
  {| coordinates := point_coordinates p; properties := PointProperties (point_marker p) |}.

(** The index answers the query of viewport [m] with the single point [p],
    returned as it was loaded. *)
Definition answers_with (sc : SuperCluster) (p : PointFeature) (m : GoogleMap) : Prop :=
  query_getClusters sc [p] (getBoundingBox m) (Math_round (getZoom m)) = [asFeature p].

(** The identifiers of the aggregates among some clusters, in order. *)
Definition aggregate_ids (cs : list Cluster) : list Z :=
  flat_map (fun c => match id c with Some i => [i] | None => [] end) cs.

(** An input that shows the stored markers of [this] in the viewport [m]. *)
Definition stored_in (this : FasterSuperClusterAlgorithm) (m : GoogleMap) : AlgorithmInput :=
  {| input_markers := stored_markers this; input_map := m |}.

(** The stored cluster list is what [cluster] gives for some viewport [m]:
    the one of the stored snapshot, or one that lies, as the stored snapshot
    does, above [maxZoom]. *)
Definition list_from_viewport (this : FasterSuperClusterAlgorithm) : Prop :=
  forall arr, this_clusters this = Some arr ->
  exists m : GoogleMap,
    items arr = cluster this (stored_in this m) /\
    (this_state this = snapshot (stored_in this m) \/
     (number_gtb (getZoom m) (maxZoom this) = true /\
      zoom_gtb (zoom (this_state this)) (maxZoom this) = true)).

(** ** A small index for the examples

    It keeps the loaded points that lie inside the queried bounding box.  Up
    to zoom 16 two or more such points are merged into one aggregate, placed
    at the first of them, whose leaves are all loaded points; above, and for
    a single point, the points are returned as they were loaded. *)

Definition inside (bbox : BoundingBox) (p : PointFeature) : bool :=
  let '(w, s, e, n) := bbox in
  let '(x, y) := point_coordinates p in
  Qle_bool w x && Qle_bool x e && Qle_bool s y && Qle_bool y n.

Definition sample_getClusters (pts : list PointFeature) (bbox : BoundingBox) (z : Z)
  : list Feature :=
  let visible := filter (inside bbox) pts in
  match visible with
  | p :: _ :: _ =>
      if (z <=? 16)%Z
      then [{| coordinates := point_coordinates p;
               properties := ClusterProperties 1 (length pts) |}]
      else map asFeature visible
  | _ => map asFeature visible
  end.

Definition sampleIndex : SuperCluster :=
  {| points := [];
     query_getClusters := sample_getClusters;
     query_getLeaves := fun pts _ _ => pts;
     query_getClusterExpansionZoom := fun _ _ => number_of_Z 17 |}.

Definition at_ (la lo : Q) : LatLng := {| lat := num la; lng := num lo |}.

Definition view (z : Q) (w s e n : Q) : GoogleMap :=
  {| getZoom := num z;
     getBounds := {| west := num w; south := num s; east := num e; north := num n |} |}.

Definition markerA : Marker := {| uid := 1; getPosition := at_ 0 0 |}.
Definition markerB : Marker := {| uid := 2; getPosition := at_ (1 # 10000) (1 # 10000) |}.
Definition markerA' : Marker := {| uid := 3; getPosition := at_ 0 0 |}.
Definition markerFar : Marker := {| uid := 4; getPosition := at_ 50 50 |}.

Definition engine0 : FasterSuperClusterAlgorithm :=
  new_FasterSuperClusterAlgorithm (number_of_Z 16) sampleIndex.

(** Inputs and objects the examples use. *)

Definition deepIndex : SuperCluster :=
  {| points := [];
     query_getClusters := sample_getClusters;
     query_getLeaves := fun pts _ _ => pts;
     query_getClusterExpansionZoom := fun _ _ => number_of_Z 23 |}.

Definition aggregate7 : Cluster :=
  {| id := Some 7%Z; markers := [markerA; markerB]; position := at_ 0 0 |}.

Definition input18 : AlgorithmInput :=
  {| input_markers := [markerA; markerB]; input_map := view 18 (-10) (-10) 10 10 |}.

Definition input19_drifted : AlgorithmInput :=
  {| input_markers := [markerA; markerB]; input_map := view 19 40 40 60 60 |}.

Definition no_markers_view1 : AlgorithmInput :=
  {| input_markers := []; input_map := view 3 (-10) (-10) 10 10 |}.

Definition no_markers_view2 : AlgorithmInput :=
  {| input_markers := []; input_map := view 3 (-5) (-5) 15 15 |}.

Definition input_half_zoom : AlgorithmInput :=
  {| input_markers := [markerA]; input_map := view (7 # 2) (-10) (-10) 10 10 |}.

Definition shifted_point : Feature :=
  {| coordinates := (num 5, num 6); properties := PointProperties markerA |}.

Definition inputA : AlgorithmInput :=
  {| input_markers := [markerA]; input_map := view 3 (-10) (-10) 10 10 |}.

Definition inputA' : AlgorithmInput :=
  {| input_markers := [markerA']; input_map := view 3 (-10) (-10) 10 10 |}.

Definition input_far : AlgorithmInput :=
  {| input_markers := [markerFar]; input_map := view 3 (-10) (-10) 10 10 |}.

Definition input_far_zoom18_away : AlgorithmInput :=
  {| input_markers := [markerFar]; input_map := view 18 (-10) (-10) 10 10 |}.

Definition input_far_zoom18_over : AlgorithmInput :=
  {| input_markers := [markerFar]; input_map := view 18 40 40 60 60 |}.

Definition inputA_moved : AlgorithmInput :=
  {| input_markers := [markerA]; input_map := view 3 (-5) (-5) 15 15 |}.

Definition aggregate_at_A : Feature :=
  {| coordinates := point_coordinates (toPoint markerB);
     properties := ClusterProperties 1 2 |}.

(** ** The scenarios of the specification, evaluated *)

(** Identifier and count of each returned cluster, and the flag. *)
Definition shape (o : AlgorithmOutput) : option (list (option Z * nat)) * bool :=
  (option_map (fun a => map (fun c => (id c, count c)) (items a)) (clusters o), changed o).

Example two_close_markers_zoom_0 :
  shape (fst (calculate engine0
    {| input_markers := [markerA; markerB]; input_map := view 0 (-10) (-10) 10 10 |}))
  = (Some [(Some 1%Z, 2)], true).
Proof. vm_compute. reflexivity. Qed.

Example two_close_markers_zoom_20 :
  shape (fst (calculate engine0
    {| input_markers := [markerA; markerB]; input_map := view 20 (-10) (-10) 10 10 |}))
  = (Some [(None, 1); (None, 1)], true).
Proof. vm_compute. reflexivity. Qed.

Example same_markers_again :
  map shape (fst (run engine0
    [ {| input_markers := [markerA]; input_map := view 3 (-10) (-10) 10 10 |};
      {| input_markers := [markerA]; input_map := view 3 (-10) (-10) 10 10 |} ]))
  = [ (Some [(None, 1)], true); (Some [(None, 1)], false) ].
Proof. vm_compute. reflexivity. Qed.

Example Math_round_half : Math_round (num (7 # 2)) = 4%Z /\ Math_round (num (-7 # 2)) = (-3)%Z.
Proof. split; reflexivity. Qed.

(** ** The equality tests decide equality *)

Lemma number_eqb_eq (a b : number) : number_eqb a b = true <-> a = b.
Proof.
  unfold number_eqb. rewrite Qeq_bool_iff. split.
  - apply Qc_is_canon.
  - intros ->. reflexivity.
Qed.

Lemma number_gtb_lt (a b : number) : number_gtb a b = true <-> (b < a)%Qc.
Proof.
  unfold number_gtb, Qclt. rewrite negb_true_iff. split.
  - intro H. apply Qnot_le_lt. intro Hle. apply Qle_bool_iff in Hle. congruence.
  - intro H. destruct (Qle_bool a b) eqn:E; [|reflexivity].
    apply Qle_bool_iff in E. exfalso. exact (Qlt_not_le _ _ H E).
Qed.

Lemma LatLng_eqb_eq (a b : LatLng) : LatLng_eqb a b = true <-> a = b.
Proof.
  unfold LatLng_eqb. rewrite andb_true_iff, !number_eqb_eq.
  destruct a, b; simpl. split.
  - intros [-> ->]. reflexivity.
  - intro H. injection H. auto.
Qed.

Lemma Marker_eqb_eq (a b : Marker) : Marker_eqb a b = true <-> a = b.
Proof.
  unfold Marker_eqb. rewrite andb_true_iff, Nat.eqb_eq, LatLng_eqb_eq.
  destruct a, b; simpl. split.
  - intros [-> ->]. reflexivity.
  - intro H. injection H. auto.
Qed.

Section ListEqb.
Variable A : Type.
Variable eqb : A -> A -> bool.
Hypothesis eqb_eq : forall x y, eqb x y = true <-> x = y.

Lemma list_eqb_eq (xs ys : list A) : list_eqb eqb xs ys = true <-> xs = ys.
Proof.
  revert ys. induction xs as [|x xs IH]; intros [|y ys]; simpl;
    try (split; [discriminate | discriminate]); try tauto.
  rewrite andb_true_iff, eqb_eq, IH. split.
  - intros [-> ->]. reflexivity.
  - intro H. injection H. auto.
Qed.
End ListEqb.

Lemma deepEqual_markers_eq (incoming : list Marker) (stored : option (list Marker)) :
  deepEqual_markers incoming stored = true <-> stored = Some incoming.
Proof.
  destruct stored as [ms|]; simpl.
  - rewrite (@list_eqb_eq _ _ Marker_eqb_eq). split; [intros -> | intro H; injection H]; auto.
  - split; discriminate.
Qed.

Lemma BoundingBox_eqb_eq (a b : BoundingBox) : BoundingBox_eqb a b = true <-> a = b.
Proof.
  destruct a as [[[w1 s1] e1] n1], b as [[[w2 s2] e2] n2]. simpl.
  rewrite !andb_true_iff, !number_eqb_eq. split.
  - intros [[[-> ->] ->] ->]. reflexivity.
  - intro H. injection H. auto.
Qed.

Lemma zoom_eqb_eq (a b : option number) : zoom_eqb a b = true <-> a = b.
Proof.
  destruct a, b; simpl; try (split; [discriminate | discriminate]); try tauto.
  rewrite number_eqb_eq. split; [intros -> | intro H; injection H]; auto.
Qed.

Lemma deepEqual_state_eq (a b : ViewState) : deepEqual_state a b = true <-> a = b.
Proof.
  unfold deepEqual_state. rewrite andb_true_iff, zoom_eqb_eq, BoundingBox_eqb_eq.
  destruct a, b; simpl. split.
  - intros [-> ->]. reflexivity.
  - intro H. injection H. auto.
Qed.

Lemma summary_eqb_eq (a b : LatLng * nat) : summary_eqb a b = true <-> a = b.
Proof.
  unfold summary_eqb. rewrite andb_true_iff, LatLng_eqb_eq, Nat.eqb_eq.
  destruct a, b; simpl. split.
  - intros [-> ->]. reflexivity.
  - intro H. injection H. auto.
Qed.

Lemma shallowEqual_eq (xs ys : list (LatLng * nat)) : shallowEqual xs ys = true <-> xs = ys.
Proof. apply (@list_eqb_eq _ _ summary_eqb_eq). Qed.

Lemma Math_min_le_r (a b : number) : (Math_min a b <= b)%Qc.
Proof.
  unfold Math_min, Qcle. destruct (Qle_bool a b) eqn:E.
  - apply Qle_bool_iff. exact E.
  - apply Qle_refl.
Qed.

Lemma Math_min_le_l (a b : number) : (Math_min a b <= a)%Qc.
Proof.
  unfold Math_min, Qcle. destruct (Qle_bool a b) eqn:E.
  - apply Qle_refl.
  - apply Qlt_le_weak, Qnot_le_lt. intro H. apply Qle_bool_iff in H. congruence.
Qed.

Lemma Math_min_cases (a b : number) :
  ((a <= b)%Qc /\ Math_min a b = a) \/ ((b < a)%Qc /\ Math_min a b = b).
Proof.
  unfold Math_min, Qcle, Qclt. destruct (Qle_bool a b) eqn:E.
  - left. split; [apply Qle_bool_iff; exact E | reflexivity].
  - right. split; [|reflexivity].
    apply Qnot_le_lt. intro H. apply Qle_bool_iff in H. congruence.
Qed.

(** ** How [calculate] unfolds *)

Lemma syncMarkers_flag (this : FasterSuperClusterAlgorithm) (input : AlgorithmInput) :
  fst (syncMarkers this input) = negb (deepEqual_markers (input_markers input) (this_markers this)).
Proof. unfold syncMarkers. destruct (deepEqual_markers _ _); reflexivity. Qed.

Lemma syncMarkers_same (this : FasterSuperClusterAlgorithm) (input : AlgorithmInput) :
  deepEqual_markers (input_markers input) (this_markers this) = true ->
  syncMarkers this input = (false, this).
Proof. unfold syncMarkers. intros ->. reflexivity. Qed.

Lemma syncMarkers_markers (this : FasterSuperClusterAlgorithm) (input : AlgorithmInput) :
  this_markers (snd (syncMarkers this input)) = Some (input_markers input).
Proof.
  unfold syncMarkers.
  destruct (deepEqual_markers (input_markers input) (this_markers this)) eqn:E; simpl.
  - apply deepEqual_markers_eq. exact E.
  - reflexivity.
Qed.

Lemma syncMarkers_frame (this : FasterSuperClusterAlgorithm) (input : AlgorithmInput) :
  let this1 := snd (syncMarkers this input) in
  maxZoom this1 = maxZoom this /\ this_state this1 = this_state this /\
  this_clusters this1 = this_clusters this /\ next_ref this1 = next_ref this.
Proof. unfold syncMarkers. destruct (deepEqual_markers _ _); simpl; auto. Qed.

Lemma changedAtGate_false (this : FasterSuperClusterAlgorithm) (input : AlgorithmInput) :
  changedAtGate this input = false <->
  deepEqual_markers (input_markers input) (this_markers this) = true /\
  viewportCheck this (snapshot input) false = false.
Proof.
  unfold changedAtGate, syncMarkers.
  destruct (deepEqual_markers (input_markers input) (this_markers this)); simpl.
  - tauto.
  - split; [discriminate | intros [H _]; discriminate].
Qed.

Lemma calculate_unchanged (this : FasterSuperClusterAlgorithm) (input : AlgorithmInput) :
  changedAtGate this input = false ->
  calculate this input =
    ({| clusters := this_clusters this; changed := false |}, set_state this (snapshot input)).
Proof.
  intro H. pose proof H as H'. apply changedAtGate_false in H' as [Hm Hv].
  unfold calculate. rewrite (syncMarkers_same _ _ Hm), Hv. reflexivity.
Qed.

Lemma calculate_recomputes (this : FasterSuperClusterAlgorithm) (input : AlgorithmInput) :
  changedAtGate this input = true ->
  calculate this input =
    let r := recompute (set_state (snd (syncMarkers this input)) (snapshot input)) input in
    ({| clusters := this_clusters (snd r); changed := fst r |}, snd r).
Proof.
  unfold changedAtGate, calculate.
  destruct (syncMarkers this input) as [c this1]. simpl. intros ->. reflexivity.
Qed.

Lemma calculate_state (this : FasterSuperClusterAlgorithm) (input : AlgorithmInput) :
  this_state (snd (calculate this input)) = snapshot input.
Proof.
  destruct (changedAtGate this input) eqn:E.
  - rewrite (calculate_recomputes _ _ E). reflexivity.
  - rewrite (calculate_unchanged _ _ E). reflexivity.
Qed.

Lemma calculate_markers (this : FasterSuperClusterAlgorithm) (input : AlgorithmInput) :
  this_markers (snd (calculate this input)) = Some (input_markers input).
Proof.
  destruct (changedAtGate this input) eqn:E.
  - rewrite (calculate_recomputes _ _ E). simpl. apply syncMarkers_markers.
  - rewrite (calculate_unchanged _ _ E). simpl.
    apply changedAtGate_false in E as [E _]. apply deepEqual_markers_eq. exact E.
Qed.

Lemma calculate_maxZoom (this : FasterSuperClusterAlgorithm) (input : AlgorithmInput) :
  maxZoom (snd (calculate this input)) = maxZoom this.
Proof.
  destruct (changedAtGate this input) eqn:E.
  - rewrite (calculate_recomputes _ _ E). simpl. apply syncMarkers_frame.
  - rewrite (calculate_unchanged _ _ E). reflexivity.
Qed.

Lemma viewportCheck_same_state (this : FasterSuperClusterAlgorithm) :
  viewportCheck this (this_state this) false = false.
Proof.
  unfold viewportCheck. simpl.
  destruct (zoom_gtb _ _ && zoom_gtb _ _); [reflexivity|].
  assert (E : deepEqual_state (this_state this) (this_state this) = true)
    by (apply deepEqual_state_eq; reflexivity).
  rewrite E. reflexivity.
Qed.

(** ** Repeated calls *)

(** C1: when [calculate] is called twice in a row with the same marker
    contents and the same viewport, the second call reports [changed = false]. *)
Theorem calculate_twice_unchanged (this : FasterSuperClusterAlgorithm) (input : AlgorithmInput) :
  let '(_, this1) := calculate this input in
  changed (fst (calculate this1 input)) = false.
Proof.
  destruct (calculate this input) as [out this1] eqn:E.
  assert (Hs : this_state this1 = snapshot input)
    by (change this1 with (snd (out, this1)); rewrite <- E; apply calculate_state).
  assert (Hm : this_markers this1 = Some (input_markers input))
    by (change this1 with (snd (out, this1)); rewrite <- E; apply calculate_markers).
  rewrite calculate_unchanged; [reflexivity|].
  apply changedAtGate_false. split.
  - apply deepEqual_markers_eq. exact Hm.
  - rewrite <- Hs. apply viewportCheck_same_state.
Qed.

(** ** Calls issued to the index *)

Lemma skipn_length_app {A : Type} (xs ys : list A) : skipn (length xs) (xs ++ ys) = ys.
Proof. induction xs as [|x xs IH]; simpl; auto. Qed.

Lemma syncMarkers_trace (this : FasterSuperClusterAlgorithm) (input : AlgorithmInput) :
  trace (snd (syncMarkers this input)) =
  trace this ++
    (if deepEqual_markers (input_markers input) (this_markers this) then []
     else [CallLoad (map toPoint (input_markers input))]).
Proof.
  unfold syncMarkers. destruct (deepEqual_markers _ _); simpl.
  - symmetry. apply app_nil_r.
  - reflexivity.
Qed.

Lemma calculate_trace (this : FasterSuperClusterAlgorithm) (input : AlgorithmInput) :
  trace (snd (calculate this input)) =
  trace this ++
    (if deepEqual_markers (input_markers input) (this_markers this) then []
     else [CallLoad (map toPoint (input_markers input))]) ++
    (if changedAtGate this input
     then cluster_calls (snd (syncMarkers this input)) input else []).
Proof.
  destruct (changedAtGate this input) eqn:E.
  - rewrite (calculate_recomputes _ _ E). simpl.
    rewrite syncMarkers_trace, <- app_assoc. reflexivity.
  - rewrite (calculate_unchanged _ _ E). simpl.
    apply changedAtGate_false in E as [-> _]. simpl. symmetry. apply app_nil_r.
Qed.

Lemma calls_issued_eq (this : FasterSuperClusterAlgorithm) (input : AlgorithmInput) :
  calls_issued this input =
    (if deepEqual_markers (input_markers input) (this_markers this) then []
     else [CallLoad (map toPoint (input_markers input))]) ++
    (if changedAtGate this input
     then cluster_calls (snd (syncMarkers this input)) input else []).
Proof. unfold calls_issued. rewrite calculate_trace. apply skipn_length_app. Qed.

Lemma leaf_lookups_no_load (fs : list Feature) :
  filter is_load (leaf_lookups fs) = [] /\ filter is_getClusters (leaf_lookups fs) = [].
Proof.
  unfold leaf_lookups. induction fs as [|f fs [IH1 IH2]]; simpl; [auto|].
  destruct (properties f); simpl; auto.
Qed.

Lemma cluster_calls_loads (this : FasterSuperClusterAlgorithm) (input : AlgorithmInput) :
  filter is_load (cluster_calls this input) = [].
Proof. unfold cluster_calls. simpl. apply leaf_lookups_no_load. Qed.

Lemma cluster_calls_queries (this : FasterSuperClusterAlgorithm) (input : AlgorithmInput) :
  filter is_getClusters (cluster_calls this input) =
  [CallGetClusters (getBoundingBox (input_map input)) (Math_round (getZoom (input_map input)))].
Proof.
  unfold cluster_calls. simpl. f_equal. apply leaf_lookups_no_load.
Qed.

(** C2: with the marker list unchanged, when the stored zoom and the current
    zoom are both strictly above [maxZoom], [calculate] reports
    [changed = false] and recomputes nothing, whatever the bounding boxes are:
    no call reaches the index, and the stored cluster list is kept and
    returned. *)
Theorem beyond_maxZoom_no_recompute
    (this : FasterSuperClusterAlgorithm) (input : AlgorithmInput) (previous : number) :
  deepEqual_markers (input_markers input) (this_markers this) = true ->
  zoom (this_state this) = Some previous ->
  (maxZoom this < previous)%Qc ->
  (maxZoom this < getZoom (input_map input))%Qc ->
  let '(out, this') := calculate this input in
  changed out = false /\
  calls_issued this input = [] /\
  clusters out = this_clusters this /\
  this_clusters this' = this_clusters this /\
  superCluster this' = superCluster this.
Proof.
  intros Hm Hz Hp Hc.
  assert (G : changedAtGate this input = false).
  { apply changedAtGate_false. split; [exact Hm|].
    unfold viewportCheck. simpl. rewrite Hz. simpl.
    apply number_gtb_lt in Hp, Hc. rewrite Hp, Hc. reflexivity. }
  rewrite calls_issued_eq, G, Hm.
  rewrite (calculate_unchanged _ _ G). simpl. auto.
Qed.

Lemma beyond_maxZoom_no_recompute_witness :
  let this := snd (calculate engine0 input18) in
  let '(out, this') := calculate this input19_drifted in
  changed out = false /\
  calls_issued this input19_drifted = [] /\
  clusters out = this_clusters this /\
  this_clusters this' = this_clusters this /\
  superCluster this' = superCluster this.
Proof.
  apply (@beyond_maxZoom_no_recompute
           (snd (calculate engine0 input18)) input19_drifted (num 18)).
  - vm_compute. reflexivity.
  - reflexivity.
  - reflexivity.
  - reflexivity.
Defined.

(** ** The summary comparison *)

Lemma recompute_changed (this : FasterSuperClusterAlgorithm) (input : AlgorithmInput) :
  fst (recompute this input) =
  match this_clusters this with
  | Some old => negb (shallowEqual (map summary (cluster this input)) (map summary (items old)))
  | None => true
  end.
Proof.
  unfold recompute. simpl. destruct (this_clusters this); [|reflexivity].
  destruct (shallowEqual _ _); reflexivity.
Qed.

Lemma calculate_recomputes_flag (this : FasterSuperClusterAlgorithm) (input : AlgorithmInput) :
  changedAtGate this input = true ->
  let '(out, this') := calculate this input in
  clusters out = this_clusters this' /\
  (exists fresh, this_clusters this' = Some fresh /\ array_ref fresh = next_ref this /\
     items fresh = cluster (snd (syncMarkers this input)) input /\
     changed out =
       match this_clusters this with
       | Some old => negb (shallowEqual (map summary (items fresh)) (map summary (items old)))
       | None => true
       end).
Proof.
  intro G. rewrite (calculate_recomputes _ _ G).
  destruct (syncMarkers_frame this input) as (_ & _ & Hc & Hn).
  cbv zeta. set (this2 := set_state (snd (syncMarkers this input)) (snapshot input)).
  split; [reflexivity|].
  exists {| array_ref := next_ref this2; items := cluster this2 input |}.
  split; [reflexivity|]. split; [exact Hn|]. split; [reflexivity|].
  cbn [changed]. rewrite recompute_changed.
  change (this_clusters this2) with (this_clusters (snd (syncMarkers this input))).
  rewrite Hc. reflexivity.
Qed.

(** C3, as stated, fails: with no markers on the map, a second call with a
    moved viewport recomputes, both the new and the stored cluster list are
    empty, and [changed] is nevertheless downgraded to [false]. *)
Lemma downgrade_with_empty_lists :
  let this := snd (calculate engine0 no_markers_view1) in
  let out := fst (calculate this no_markers_view2) in
  changedAtGate this no_markers_view2 = true /\
  option_map (@items) (this_clusters this) = Some [] /\
  option_map (@items) (clusters out) = Some [] /\
  changed out = false.
Proof. vm_compute. repeat split; reflexivity. Qed.

(** C3, amended: when [calculate] recomputes, the summaries are compared
    exactly when a stored cluster list exists, whatever the lengths of the two
    lists.  [changed] is downgraded to [false] if and only if there is a stored
    list whose summaries equal, position by position, those of the new list.
    So there is no downgrade before the first list is stored, none when
    exactly one of the lists is empty, and there is one when both are empty. *)
Theorem summary_downgrade_iff (this : FasterSuperClusterAlgorithm) (input : AlgorithmInput) :
  changedAtGate this input = true ->
  let '(out, this') := calculate this input in
  (changed out = false <->
     exists old new, this_clusters this = Some old /\ clusters out = Some new /\
                     map summary (items new) = map summary (items old)) /\
  (this_clusters this = None -> changed out = true) /\
  (forall old new, this_clusters this = Some old -> clusters out = Some new ->
     (items old = [] /\ items new <> []) \/ (items old <> [] /\ items new = []) ->
     changed out = true) /\
  (forall old new, this_clusters this = Some old -> clusters out = Some new ->
     items old = [] -> items new = [] -> changed out = false).
Proof.
  intro G. pose proof (calculate_recomputes_flag _ _ G) as H.
  destruct (calculate this input) as [out this'].
  destruct H as (Ho & fresh & Hf & _ & _ & Hc). rewrite Ho, Hf.
  assert (M : changed out = false <->
     exists old new, this_clusters this = Some old /\ Some fresh = Some new /\
                     map summary (items new) = map summary (items old)).
  { rewrite Hc. destruct (this_clusters this) as [old|].
    - rewrite negb_false_iff, shallowEqual_eq. split.
      + intro E. exists old, fresh. auto.
      + intros (old' & new & Eo & En & E). injection Eo as <-. injection En as <-. exact E.
    - split; [discriminate | intros (? & ? & ? & _); discriminate]. }
  split; [exact M|]. split; [|split].
  - intro N. rewrite Hc, N. reflexivity.
  - intros old new Eo En D. apply not_false_is_true. intro C.
    apply M in C as (old' & new' & Eo' & En' & E).
    rewrite Eo in Eo'. injection Eo' as <-. rewrite En in En'. injection En' as <-.
    destruct D as [[D1 D2]|[D1 D2]].
    + rewrite D1 in E. destruct (items new); [congruence | discriminate].
    + rewrite D2 in E. destruct (items old); [congruence | discriminate].
  - intros old new Eo En E1 E2. apply M. exists old, new. rewrite E1, E2. auto.
Qed.

Lemma summary_downgrade_iff_witness :
  let this := snd (calculate engine0 no_markers_view1) in
  let '(out, this') := calculate this no_markers_view2 in
  (changed out = false <->
     exists old new, this_clusters this = Some old /\ clusters out = Some new /\
                     map summary (items new) = map summary (items old)) /\
  (this_clusters this = None -> changed out = true) /\
  (forall old new, this_clusters this = Some old -> clusters out = Some new ->
     (items old = [] /\ items new <> []) \/ (items old <> [] /\ items new = []) ->
     changed out = true) /\
  (forall old new, this_clusters this = Some old -> clusters out = Some new ->
     items old = [] -> items new = [] -> changed out = false).
Proof.
  apply (@summary_downgrade_iff (snd (calculate engine0 no_markers_view1)) no_markers_view2).
  vm_compute. reflexivity.
Defined.

(** ** The viewport snapshot *)

(** C4: every call to [calculate] replaces the stored viewport snapshot by
    the zoom and bounding box just read, whatever [changed] it reports; a next
    call with the same markers therefore decides against this call's
    viewport. *)
Theorem viewport_snapshot_replaced (this : FasterSuperClusterAlgorithm) (input : AlgorithmInput) :
  let '(out, this') := calculate this input in
  this_state this' =
    {| zoom := Some (getZoom (input_map input));
       boundingBox := (west (getBounds (input_map input)), south (getBounds (input_map input)),
                       east (getBounds (input_map input)), north (getBounds (input_map input))) |}
  /\ forall next : GoogleMap,
       changedAtGate this' (with_map input next) =
       if number_gtb (getZoom (input_map input)) (maxZoom this)
          && number_gtb (getZoom next) (maxZoom this)
       then false
       else negb (deepEqual_state (snapshot input) (snapshot (with_map input next))).
Proof.
  pose proof (calculate_state this input) as Hs.
  pose proof (calculate_markers this input) as Hm.
  pose proof (calculate_maxZoom this input) as Hz.
  destruct (calculate this input) as [out this']. simpl in Hs, Hm, Hz.
  split; [exact Hs|]. intro next.
  unfold changedAtGate. rewrite syncMarkers_same.
  - unfold viewportCheck. rewrite Hs, Hz. simpl. reflexivity.
  - apply deepEqual_markers_eq. exact Hm.
Qed.

(** The snapshot is replaced on a call that reports no change, too. *)
Example snapshot_replaced_when_unchanged :
  let this := snd (calculate engine0 input18) in
  changed (fst (calculate this input19_drifted)) = false /\
  this_state this = snapshot input18 /\
  this_state (snd (calculate this input19_drifted)) = snapshot input19_drifted.
Proof. vm_compute. repeat split; reflexivity. Qed.

(** C5, as stated, fails: at zoom 3.5 the snapshot records 3.5, not the
    rounded zoom 4. *)
Lemma snapshot_zoom_not_rounded :
  let this' := snd (calculate engine0 input_half_zoom) in
  zoom (this_state this') = Some (num (7 # 2)) /\
  Math_round (getZoom (input_map input_half_zoom)) = 4%Z /\
  zoom (this_state this')
    <> Some (number_of_Z (Math_round (getZoom (input_map input_half_zoom)))).
Proof.
  cbv zeta. split; [reflexivity|]. split; [reflexivity|].
  intro H. vm_compute in H. discriminate H.
Qed.

(** C5, amended: the zoom recorded in the viewport snapshot is the host
    widget's current zoom as reported, unrounded; the zoom rounded to an
    integer is what the index is queried with, when it is queried. *)
Theorem snapshot_zoom_as_reported (this : FasterSuperClusterAlgorithm) (input : AlgorithmInput) :
  let '(out, this') := calculate this input in
  zoom (this_state this') = Some (getZoom (input_map input)) /\
  filter is_getClusters (calls_issued this input) =
    if changedAtGate this input
    then [CallGetClusters (getBoundingBox (input_map input))
                          (Math_round (getZoom (input_map input)))]
    else [].
Proof.
  pose proof (calculate_state this input) as Hs.
  rewrite calls_issued_eq.
  destruct (calculate this input) as [out this']. simpl in Hs. rewrite Hs.
  split; [reflexivity|].
  rewrite filter_app.
  assert (L : filter is_getClusters
                (if deepEqual_markers (input_markers input) (this_markers this) then []
                 else [CallLoad (map toPoint (input_markers input))]) = [])
    by (destruct (deepEqual_markers _ _); reflexivity).
  rewrite L. simpl.
  destruct (changedAtGate this input); [apply cluster_calls_queries | reflexivity].
Qed.

(** ** Expansion zoom *)

(** C6: for an aggregate cluster, whose identifier the index answers for,
    the expansion zoom is the minimum of the zoom the index reports and 20,
    and so never exceeds 20; this holds for the getter of the cluster and for
    the method of the algorithm alike. *)
Theorem expansionZoom_capped
    (sc : SuperCluster) (this : FasterSuperClusterAlgorithm) (c : Cluster) (i : Z) :
  id c = Some i ->
  let reported := getClusterExpansionZoom sc i in
  let reported' := getClusterExpansionZoom (superCluster this) i in
  (exists z, expansionZoom sc c = Some z /\ z = Math_min reported (number_of_Z 20) /\
             (z <= number_of_Z 20)%Qc /\ (z <= reported)%Qc /\
             (z = reported \/ z = number_of_Z 20)) /\
  (exists z, getExpansionZoom this c = Some z /\ z = Math_min reported' (number_of_Z 20) /\
             (z <= number_of_Z 20)%Qc /\ (z <= reported')%Qc /\
             (z = reported' \/ z = number_of_Z 20)).
Proof.
  intro Hi. cbv zeta. unfold expansionZoom, getExpansionZoom. rewrite Hi.
  split; eexists; (split; [reflexivity|]); (split; [reflexivity|]);
    (split; [apply Math_min_le_r|]); (split; [apply Math_min_le_l|]).
  - destruct (Math_min_cases (getClusterExpansionZoom sc i) (number_of_Z 20))
      as [[_ ->]|[_ ->]]; auto.
  - destruct (Math_min_cases (getClusterExpansionZoom (superCluster this) i) (number_of_Z 20))
      as [[_ ->]|[_ ->]]; auto.
Qed.

Lemma expansionZoom_capped_witness :
  (exists z, expansionZoom deepIndex aggregate7 = Some z /\
             z = Math_min (getClusterExpansionZoom deepIndex 7) (number_of_Z 20) /\
             (z <= number_of_Z 20)%Qc /\ (z <= getClusterExpansionZoom deepIndex 7)%Qc /\
             (z = getClusterExpansionZoom deepIndex 7 \/ z = number_of_Z 20)) /\
  (exists z, getExpansionZoom engine0 aggregate7 = Some z /\
             z = Math_min (getClusterExpansionZoom (superCluster engine0) 7) (number_of_Z 20) /\
             (z <= number_of_Z 20)%Qc /\
             (z <= getClusterExpansionZoom (superCluster engine0) 7)%Qc /\
             (z = getClusterExpansionZoom (superCluster engine0) 7 \/ z = number_of_Z 20)).
Proof.
  apply (@expansionZoom_capped deepIndex engine0 aggregate7 7%Z). reflexivity.
Defined.

Example expansionZoom_values :
  expansionZoom deepIndex aggregate7 = Some (number_of_Z 20) /\
  getExpansionZoom engine0 aggregate7 = Some (number_of_Z 17).
Proof. split; reflexivity. Qed.

(** ** Invariants of the engine state *)

Lemma calculate_superCluster (this : FasterSuperClusterAlgorithm) (input : AlgorithmInput) :
  superCluster (snd (calculate this input)) =
  if deepEqual_markers (input_markers input) (this_markers this)
  then superCluster this
  else load (superCluster this) (map toPoint (input_markers input)).
Proof.
  assert (S : superCluster (snd (calculate this input))
              = superCluster (snd (syncMarkers this input))).
  { destruct (changedAtGate this input) eqn:E.
    - rewrite (calculate_recomputes _ _ E). reflexivity.
    - rewrite (calculate_unchanged _ _ E). simpl.
      apply changedAtGate_false in E as [E _]. rewrite (syncMarkers_same _ _ E). reflexivity. }
  rewrite S. unfold syncMarkers. destruct (deepEqual_markers _ _); reflexivity.
Qed.

Lemma calculate_next_ref (this : FasterSuperClusterAlgorithm) (input : AlgorithmInput) :
  next_ref (snd (calculate this input)) =
  if changedAtGate this input then S (next_ref this) else next_ref this.
Proof.
  destruct (changedAtGate this input) eqn:E.
  - rewrite (calculate_recomputes _ _ E). simpl. f_equal. apply syncMarkers_frame.
  - rewrite (calculate_unchanged _ _ E). reflexivity.
Qed.

Lemma well_formed_new (mz : number) (sc : SuperCluster) :
  well_formed mz sc (new_FasterSuperClusterAlgorithm mz sc).
Proof.
  constructor; simpl; try reflexivity.
  - repeat split.
  - intro H. exfalso. apply H. reflexivity.
  - discriminate.
Qed.

Lemma well_formed_calculate (mz : number) (sc : SuperCluster)
    (this : FasterSuperClusterAlgorithm) (input : AlgorithmInput) :
  well_formed mz sc this -> well_formed mz sc (snd (calculate this input)).
Proof.
  intros [Hz Hq Hs Hc Hr]. constructor.
  - rewrite calculate_maxZoom. exact Hz.
  - rewrite calculate_superCluster. destruct (deepEqual_markers _ _); [exact Hq|].
    destruct Hq as (Q1 & Q2 & Q3). repeat split; simpl; assumption.
  - unfold stored_markers. rewrite calculate_markers, calculate_superCluster.
    destruct (deepEqual_markers _ _) eqn:E; [|reflexivity].
    apply deepEqual_markers_eq in E. rewrite Hs. unfold stored_markers. rewrite E. reflexivity.
  - intros _. destruct (changedAtGate this input) eqn:E.
    + pose proof (calculate_recomputes_flag _ _ E) as H.
      destruct (calculate this input) as [out this']. simpl.
      destruct H as (_ & fresh & -> & _). discriminate.
    + rewrite (calculate_unchanged _ _ E). simpl. apply Hc.
      apply changedAtGate_false in E as [E _]. apply deepEqual_markers_eq in E.
      rewrite E. discriminate.
  - intros a Ha. rewrite calculate_next_ref. destruct (changedAtGate this input) eqn:E.
    + pose proof (calculate_recomputes_flag _ _ E) as H.
      destruct (calculate this input) as [out this']. simpl in Ha.
      destruct H as (_ & fresh & Hf & Href & _). rewrite Hf in Ha. injection Ha as <-. lia.
    + rewrite (calculate_unchanged _ _ E) in Ha. simpl in Ha. apply Hr. exact Ha.
Qed.

Lemma reachable_well_formed (mz : number) (sc : SuperCluster) (this : FasterSuperClusterAlgorithm) :
  reachable mz sc this -> well_formed mz sc this.
Proof.
  induction 1 as [|this input _ IH].
  - apply well_formed_new.
  - apply well_formed_calculate. exact IH.
Qed.

Lemma run_reachable (mz : number) (sc : SuperCluster) (inputs : list AlgorithmInput) :
  forall this, reachable mz sc this -> reachable mz sc (snd (run this inputs)).
Proof.
  induction inputs as [|input rest IH]; intros this R; simpl; [exact R|].
  pose proof (reachable_calculate input R) as R'.
  destruct (calculate this input) as [out this'].
  specialize (IH this' R'). destruct (run this' rest) as [outs this'']. exact IH.
Qed.

Lemma started_well_formed (mz : number) (sc : SuperCluster) (history : list AlgorithmInput) :
  well_formed mz sc (started mz sc history).
Proof. apply reachable_well_formed, run_reachable, reachable_new. Qed.

(** A recomputation stores an array that is not the one stored before. *)
Lemma recompute_allocates (mz : number) (sc : SuperCluster)
    (this : FasterSuperClusterAlgorithm) (input : AlgorithmInput) (old : ClusterArray) :
  well_formed mz sc this -> this_clusters this = Some old ->
  changedAtGate this input = true ->
  clusters (fst (calculate this input)) <> Some old.
Proof.
  intros W Ho G. pose proof (calculate_recomputes_flag _ _ G) as H.
  destruct (calculate this input) as [out this']. simpl.
  destruct H as (-> & fresh & -> & Href & _).
  intro E. injection E as ->. pose proof (wf_refs W Ho). lia.
Qed.

(** ** The index and the marker list *)

(** C8: after every call to [calculate] the index holds exactly the marker
    list of that call, in its order, each marker projected to a point with
    coordinates [lng, lat]; and the call reloads the index exactly when the
    incoming list differs from the stored one. *)
Theorem index_holds_latest_markers
    (mz : number) (sc : SuperCluster) (history : list AlgorithmInput) (input : AlgorithmInput) :
  let this := started mz sc history in
  let this' := snd (calculate this input) in
  points (superCluster this') = map toPoint (input_markers input) /\
  map (@point_coordinates) (points (superCluster this'))
    = map (fun m => (lng (getPosition m), lat (getPosition m))) (input_markers input) /\
  map (@point_marker) (points (superCluster this')) = input_markers input /\
  this_markers this' = Some (input_markers input) /\
  filter is_load (calls_issued this input)
    = (if deepEqual_markers (input_markers input) (this_markers this) then []
       else [CallLoad (map toPoint (input_markers input))]) /\
  (deepEqual_markers (input_markers input) (this_markers this) = true
   <-> this_markers this = Some (input_markers input)).
Proof.
  intros this this'.
  assert (W : well_formed mz sc this') by apply well_formed_calculate, started_well_formed.
  assert (M : this_markers this' = Some (input_markers input)) by apply calculate_markers.
  assert (P : points (superCluster this') = map toPoint (input_markers input)).
  { rewrite (wf_in_sync W). unfold stored_markers. rewrite M. reflexivity. }
  split; [exact P|]. rewrite P, !map_map. simpl.
  split; [reflexivity|]. split; [apply map_id|]. split; [exact M|].
  split; [|apply deepEqual_markers_eq].
  rewrite calls_issued_eq, filter_app.
  assert (Q : filter is_load
                (if changedAtGate this input
                 then cluster_calls (snd (syncMarkers this input)) input else []) = [])
    by (destruct (changedAtGate this input); [apply cluster_calls_loads | reflexivity]).
  rewrite Q, app_nil_r. destruct (deepEqual_markers _ _); reflexivity.
Qed.

Example reload_only_on_new_markers :
  map is_load (calls_issued engine0 input18) = [true; false] /\
  calls_issued (snd (calculate engine0 input18)) input19_drifted = [] /\
  map is_load (calls_issued (snd (calculate engine0 input18)) input_half_zoom) = [true; false].
Proof. vm_compute. repeat split; reflexivity. Qed.

(** ** The stored cluster list *)

(** C9: a call of [calculate] that finds neither the marker list nor the
    relevant viewport state changed writes no cluster list and issues no
    index call; the list it returns is the very array, the same object with
    the same contents, that the previous call returned. *)
Theorem unchanged_returns_same_array
    (mz : number) (sc : SuperCluster) (history : list AlgorithmInput)
    (previous input : AlgorithmInput) :
  let this0 := started mz sc history in
  let out1 := fst (calculate this0 previous) in
  let this1 := snd (calculate this0 previous) in
  changedAtGate this1 input = false ->
  let '(out2, this2) := calculate this1 input in
  changed out2 = false /\
  this_clusters this2 = this_clusters this1 /\
  next_ref this2 = next_ref this1 /\
  calls_issued this1 input = [] /\
  exists arr, clusters out1 = Some arr /\ clusters out2 = Some arr /\
              this_clusters this2 = Some arr.
Proof.
  intros this0 out1 this1 G.
  assert (W : well_formed mz sc this1) by apply well_formed_calculate, started_well_formed.
  assert (O : clusters out1 = this_clusters this1).
  { unfold out1, this1. destruct (changedAtGate this0 previous) eqn:E.
    - rewrite (calculate_recomputes _ _ E). reflexivity.
    - rewrite (calculate_unchanged _ _ E). reflexivity. }
  assert (D : this_clusters this1 <> None).
  { apply (wf_clusters W). unfold this1. rewrite calculate_markers. discriminate. }
  rewrite calls_issued_eq, G.
  pose proof G as G'. apply changedAtGate_false in G' as [-> _].
  rewrite (calculate_unchanged _ _ G). simpl.
  repeat (split; [reflexivity|]).
  destruct (this_clusters this1) as [arr|] eqn:E; [|contradiction].
  exists arr. rewrite O. auto.
Qed.

Lemma unchanged_returns_same_array_witness :
  let this0 := started (number_of_Z 16) sampleIndex [input_half_zoom] in
  let out1 := fst (calculate this0 input18) in
  let this1 := snd (calculate this0 input18) in
  let '(out2, this2) := calculate this1 input19_drifted in
  changed out2 = false /\
  this_clusters this2 = this_clusters this1 /\
  next_ref this2 = next_ref this1 /\
  calls_issued this1 input19_drifted = [] /\
  exists arr, clusters out1 = Some arr /\ clusters out2 = Some arr /\
              this_clusters this2 = Some arr.
Proof.
  apply (@unchanged_returns_same_array
           (number_of_Z 16) sampleIndex [input_half_zoom] input18 input19_drifted).
  vm_compute. reflexivity.
Defined.

(** ** The feature transform *)

Lemma cluster_of_single_point (mz : number) (sc : SuperCluster)
    (this : FasterSuperClusterAlgorithm) (input : AlgorithmInput) (marker : Marker) :
  well_formed mz sc this -> this_markers this = Some [marker] ->
  answers_with sc (toPoint marker) (input_map input) ->
  cluster this input = [leaf marker].
Proof.
  intros W M A. unfold cluster, getClusters.
  rewrite (wf_in_sync W). unfold stored_markers. rewrite M.
  destruct (wf_queries W) as (-> & _). simpl. rewrite A. reflexivity.
Qed.

Lemma calculate_single_marker (mz : number) (sc : SuperCluster)
    (this : FasterSuperClusterAlgorithm) (input : AlgorithmInput) (marker : Marker) :
  well_formed mz sc this -> input_markers input = [marker] ->
  answers_with sc (toPoint marker) (input_map input) ->
  changedAtGate this input = true ->
  let '(out, this') := calculate this input in
  exists r, clusters out = Some {| array_ref := r; items := [leaf marker] |} /\
            changed out =
              match this_clusters this with
              | Some old => negb (shallowEqual [summary (leaf marker)] (map summary (items old)))
              | None => true
              end.
Proof.
  intros W M A G.
  assert (C : cluster (snd (syncMarkers this input)) input = [leaf marker]).
  { assert (E : cluster (snd (syncMarkers this input)) input
                = cluster (snd (calculate this input)) input).
    { unfold cluster. rewrite (calculate_recomputes _ _ G). reflexivity. }
    rewrite E. apply (@cluster_of_single_point mz sc).
    - apply well_formed_calculate. exact W.
    - rewrite calculate_markers, M. reflexivity.
    - exact A. }
  pose proof (calculate_recomputes_flag _ _ G) as H.
  destruct (calculate this input) as [out this'].
  destruct H as (-> & fresh & -> & _ & Hi & Hc).
  exists (array_ref fresh). rewrite Hc, Hi, C. split; [|reflexivity].
  destruct fresh as [r its]. simpl in *. rewrite <- C, Hi. reflexivity.
Qed.

(** C7, as stated, fails in its consequence: the index is queried with the
    bounding box of the viewport, and a marker list of one marker that lies
    outside of it yields no cluster at all. *)
Lemma single_marker_outside_viewport :
  input_markers input_far = [markerFar] /\
  inside (getBoundingBox (input_map input_far)) (toPoint markerFar) = false /\
  clusters (fst (calculate engine0 input_far)) = Some {| array_ref := 0; items := [] |}.
Proof. vm_compute. repeat split; reflexivity. Qed.

(** C7, amended: a query result that is not flagged as an aggregate is
    transformed into a leaf cluster: its members are the one original marker,
    its position is that marker's own position whatever coordinates the index
    reports, and its count is 1.  Consequently, when the marker list holds
    exactly one marker and the index answers the viewport query with that one
    point, a call of [calculate] that computes clusters returns exactly that
    one leaf cluster. *)
Theorem leaf_cluster_of_point :
  (forall (this : FasterSuperClusterAlgorithm) (f : Feature),
     properties_cluster (properties f) = false ->
     exists marker,
       properties f = PointProperties marker /\
       transformCluster this f = leaf marker /\
       markers (transformCluster this f) = [marker] /\
       position (transformCluster this f) = getPosition marker /\
       id (transformCluster this f) = None /\
       count (transformCluster this f) = 1) /\
  (forall (mz : number) (sc : SuperCluster) (history : list AlgorithmInput)
          (input : AlgorithmInput) (marker : Marker),
     input_markers input = [marker] ->
     answers_with sc (toPoint marker) (input_map input) ->
     changedAtGate (started mz sc history) input = true ->
     exists r,
       clusters (fst (calculate (started mz sc history) input))
         = Some {| array_ref := r; items := [leaf marker] |} /\
       position (leaf marker) = getPosition marker /\ count (leaf marker) = 1).
Proof.
  split.
  - intros this f H. unfold transformCluster.
    destruct f as [[x y] [marker|cid n]]; simpl in *; [|discriminate].
    exists marker. repeat split.
  - intros mz sc history input marker M A G.
    pose proof (@calculate_single_marker mz sc _ input marker
                  (started_well_formed mz sc history) M A G) as H.
    destruct (calculate (started mz sc history) input) as [out this'].
    destruct H as (r & H & _). exists r. simpl. auto.
Qed.

Lemma leaf_cluster_of_point_witness :
  (exists marker,
     properties shifted_point = PointProperties marker /\
     transformCluster engine0 shifted_point = leaf marker /\
     markers (transformCluster engine0 shifted_point) = [marker] /\
     position (transformCluster engine0 shifted_point) = getPosition marker /\
     id (transformCluster engine0 shifted_point) = None /\
     count (transformCluster engine0 shifted_point) = 1) /\
  (exists r,
     clusters (fst (calculate (started (number_of_Z 16) sampleIndex [input18]) inputA))
       = Some {| array_ref := r; items := [leaf markerA] |} /\
     position (leaf markerA) = getPosition markerA /\ count (leaf markerA) = 1).
Proof.
  split.
  - apply (proj1 leaf_cluster_of_point engine0 shifted_point). reflexivity.
  - apply (proj2 leaf_cluster_of_point (number_of_Z 16) sampleIndex [input18] inputA markerA).
    + reflexivity.
    + vm_compute. reflexivity.
    + vm_compute. reflexivity.
Defined.

(** A call that does not compute returns the stored list, which may stem from
    another viewport: beyond [maxZoom] the marker comes into view and the
    empty list is returned again. *)
Example single_marker_stale_list :
  let this := snd (calculate engine0 input_far_zoom18_away) in
  answers_with sampleIndex (toPoint markerFar) (input_map input_far_zoom18_over) /\
  changedAtGate this input_far_zoom18_over = false /\
  shape (fst (calculate this input_far_zoom18_over)) = (Some [], false).
Proof. vm_compute. repeat split; reflexivity. Qed.

Example leaf_keeps_marker_position :
  position (transformCluster engine0 shifted_point) = at_ 0 0 /\
  coordinates shifted_point = (num 5, num 6).
Proof. split; reflexivity. Qed.

(** ** What the summary does not see *)

Lemma summary_of_position_and_count (c d : Cluster) :
  position c = position d -> length (markers c) = length (markers d) -> summary c = summary d.
Proof. unfold summary, count. intros -> ->. reflexivity. Qed.

Lemma calculate_returns_stored (this : FasterSuperClusterAlgorithm) (input : AlgorithmInput) :
  clusters (fst (calculate this input)) = this_clusters (snd (calculate this input)).
Proof.
  destruct (changedAtGate this input) eqn:E.
  - rewrite (calculate_recomputes _ _ E). reflexivity.
  - rewrite (calculate_unchanged _ _ E). reflexivity.
Qed.

Lemma changedAtGate_new_markers (this : FasterSuperClusterAlgorithm) (input : AlgorithmInput) :
  this_markers this <> Some (input_markers input) -> changedAtGate this input = true.
Proof.
  intro N. apply not_false_is_true. intro G.
  apply changedAtGate_false in G as [G _]. apply deepEqual_markers_eq in G. contradiction.
Qed.

(** C10: there are two successive calls of [calculate] of which the second
    recomputes a cluster list with other member markers than the list before
    and still reports [changed = false].  Take two different markers at one
    position, shown one after the other in a viewport for which the index
    returns the loaded point: both calls yield one leaf cluster, the members
    differ, and the summaries, made of position and count only, agree. *)
Theorem summary_blind_to_members
    (mz : number) (sc : SuperCluster) (a b : Marker) (m : GoogleMap) :
  getPosition a = getPosition b -> a <> b ->
  answers_with sc (toPoint a) m -> answers_with sc (toPoint b) m ->
  let first := {| input_markers := [a]; input_map := m |} in
  let second := {| input_markers := [b]; input_map := m |} in
  let '(out1, this1) := calculate (new_FasterSuperClusterAlgorithm mz sc) first in
  let '(out2, this2) := calculate this1 second in
  changedAtGate this1 second = true /\
  changed out2 = false /\
  exists c1 c2,
    clusters out1 = Some c1 /\ clusters out2 = Some c2 /\
    map (@markers) (items c1) = [[a]] /\ map (@markers) (items c2) = [[b]] /\
    map (@markers) (items c1) <> map (@markers) (items c2) /\
    map summary (items c1) = map summary (items c2).
Proof.
  intros P D A B first second.
  set (this0 := new_FasterSuperClusterAlgorithm mz sc).
  assert (G1 : changedAtGate this0 first = true) by reflexivity.
  pose proof (@calculate_single_marker mz sc this0 first a
                (well_formed_new mz sc) eq_refl A G1) as H1.
  pose proof (well_formed_calculate first (well_formed_new mz sc)) as W1.
  pose proof (calculate_markers this0 first) as M1.
  pose proof (calculate_returns_stored this0 first) as S1.
  fold this0 in W1.
  destruct (calculate this0 first) as [out1 this1]. simpl in W1, M1, S1.
  destruct H1 as (r1 & O1 & _). rewrite O1 in S1.
  assert (G2 : changedAtGate this1 second = true).
  { apply changedAtGate_new_markers. rewrite M1. simpl. intro E. apply D. congruence. }
  pose proof (@calculate_single_marker mz sc this1 second b W1 eq_refl B G2) as H2.
  destruct (calculate this1 second) as [out2 this2].
  destruct H2 as (r2 & O2 & C2). rewrite <- S1 in C2. simpl in C2.
  split; [exact G2|]. split.
  - rewrite C2. apply negb_false_iff, shallowEqual_eq.
    f_equal. apply summary_of_position_and_count; simpl; [symmetry; exact P | reflexivity].
  - eexists. eexists. split; [exact O1|]. split; [exact O2|]. simpl.
    split; [reflexivity|]. split; [reflexivity|]. split.
    + intro E. apply D. congruence.
    + f_equal. apply summary_of_position_and_count; simpl; [exact P | reflexivity].
Qed.

Lemma summary_blind_to_members_witness :
  let '(out1, this1) := calculate engine0 inputA in
  let '(out2, this2) := calculate this1 inputA' in
  changedAtGate this1 inputA' = true /\
  changed out2 = false /\
  exists c1 c2,
    clusters out1 = Some c1 /\ clusters out2 = Some c2 /\
    map (@markers) (items c1) = [[markerA]] /\ map (@markers) (items c2) = [[markerA']] /\
    map (@markers) (items c1) <> map (@markers) (items c2) /\
    map summary (items c1) = map summary (items c2).
Proof.
  apply (@summary_blind_to_members (number_of_Z 16) sampleIndex markerA markerA'
           (view 3 (-10) (-10) 10 10)).
  - reflexivity.
  - discriminate.
  - vm_compute. reflexivity.
  - vm_compute. reflexivity.
Defined.

Example same_place_other_marker :
  map shape (fst (run engine0 [inputA; inputA'])) = [ (Some [(None, 1)], true); (Some [(None, 1)], false) ].
Proof. vm_compute. reflexivity. Qed.

(** ** Further properties of [calculate] *)

Lemma set_state_same (this : FasterSuperClusterAlgorithm) :
  set_state this (this_state this) = this.
Proof. destruct this. reflexivity. Qed.

(** X1: the first call on a new engine loads the index with the incoming
    markers, queries it and reports [changed = true], whatever the markers
    (the empty list too) and the viewport are. *)
Theorem first_call_loads_and_computes
    (mz : number) (sc : SuperCluster) (input : AlgorithmInput) :
  let this := new_FasterSuperClusterAlgorithm mz sc in
  let '(out, this') := calculate this input in
  changed out = true /\
  superCluster this' = load sc (map toPoint (input_markers input)) /\
  calls_issued this input
    = CallLoad (map toPoint (input_markers input)) :: cluster_calls this' input /\
  clusters out = Some {| array_ref := 0; items := cluster this' input |}.
Proof.
  cbv zeta.
  assert (G : changedAtGate (new_FasterSuperClusterAlgorithm mz sc) input = true)
    by reflexivity.
  rewrite calls_issued_eq, G. rewrite (calculate_recomputes _ _ G).
  simpl. repeat split.
Qed.

(** X2: repeating a call is a no-op on the engine.  After a call with some
    input, any number of further calls with that input leave the whole state
    as it is, issue no index call, and return the stored list with
    [changed = false]. *)
Theorem repeated_call_is_noop
    (this : FasterSuperClusterAlgorithm) (input : AlgorithmInput) (n : nat) :
  let this1 := snd (calculate this input) in
  calculate this1 input = ({| clusters := this_clusters this1; changed := false |}, this1) /\
  run this1 (repeat input n)
    = (repeat {| clusters := this_clusters this1; changed := false |} n, this1).
Proof.
  intros this1.
  assert (G : changedAtGate this1 input = false).
  { apply changedAtGate_false. split.
    - apply deepEqual_markers_eq. apply calculate_markers.
    - unfold this1. rewrite <- (calculate_state this input).
      apply viewportCheck_same_state. }
  assert (E : calculate this1 input
              = ({| clusters := this_clusters this1; changed := false |}, this1)).
  { rewrite (calculate_unchanged _ _ G). f_equal.
    unfold this1 at 2. rewrite <- (calculate_state this input). apply set_state_same. }
  split; [exact E|].
  induction n as [|n IH]; simpl; [reflexivity|].
  rewrite E, IH. reflexivity.
Qed.

(** X3: what the flag tells a renderer.  On an engine in use, a call
    reports [changed = false] exactly when the list it returns has, position
    by position, the summaries of the list stored by the previous call; on a
    new engine it reports [changed = true]. *)
Theorem changed_iff_summaries_differ
    (mz : number) (sc : SuperCluster) (history : list AlgorithmInput) (input : AlgorithmInput) :
  let this := started mz sc history in
  let '(out, this') := calculate this input in
  exists new,
    clusters out = Some new /\
    (changed out = false <->
       exists old, this_clusters this = Some old /\
                   map summary (items new) = map summary (items old)).
Proof.
  intro this. pose proof (started_well_formed mz sc history) as W. fold this in W.
  destruct (changedAtGate this input) eqn:G.
  - pose proof (calculate_recomputes_flag _ _ G) as H.
    destruct (calculate this input) as [out this'].
    destruct H as (-> & fresh & -> & _ & _ & ->). exists fresh. split; [reflexivity|].
    destruct (this_clusters this) as [old|].
    + rewrite negb_false_iff, shallowEqual_eq. split.
      * intro E. exists old. auto.
      * intros (old' & Eo & E). injection Eo as <-. exact E.
    + split; [discriminate | intros (? & ? & _); discriminate].
  - rewrite (calculate_unchanged _ _ G). simpl.
    assert (D : this_clusters this <> None).
    { apply (wf_clusters W). apply changedAtGate_false in G as [G _].
      apply deepEqual_markers_eq in G. rewrite G. discriminate. }
    destruct (this_clusters this) as [old|]; [|contradiction].
    exists old. split; [reflexivity|]. split; [|reflexivity].
    intros _. exists old. auto.
Qed.

(** X4: a call returns the array object stored before it exactly when it
    does not recompute; a recomputation always returns a newly allocated
    array, also when it reports [changed = false]. *)
Theorem same_array_iff_not_recomputed
    (mz : number) (sc : SuperCluster) (history : list AlgorithmInput) (input : AlgorithmInput) :
  let this := started mz sc history in
  let '(out, this') := calculate this input in
  (clusters out = this_clusters this <-> changedAtGate this input = false) /\
  (changedAtGate this input = true <->
     clusters out = Some {| array_ref := next_ref this; items := cluster this' input |}).
Proof.
  intro this. pose proof (started_well_formed mz sc history) as W. fold this in W.
  destruct (changedAtGate this input) eqn:G.
  - pose proof (calculate_recomputes_flag _ _ G) as H.
    assert (C : cluster (snd (syncMarkers this input)) input
                = cluster (snd (calculate this input)) input).
    { unfold cluster. rewrite (calculate_recomputes _ _ G). reflexivity. }
    destruct (calculate this input) as [out this'].
    destruct H as (-> & fresh & -> & Href & Hi & _). simpl in C.
    assert (F : fresh = {| array_ref := next_ref this; items := cluster this' input |}).
    { destruct fresh as [r its]. simpl in *. rewrite Href, Hi, C. reflexivity. }
    split; split; try discriminate; try reflexivity.
    + intro E. exfalso. symmetry in E. pose proof (wf_refs W E). lia.
    + intros _. rewrite F. reflexivity.
  - rewrite (calculate_unchanged _ _ G). simpl.
    split; split; try discriminate; try reflexivity.
    intro E. exfalso.
    assert (D : this_clusters this <> None).
    { apply (wf_clusters W). apply changedAtGate_false in G as [G _].
      apply deepEqual_markers_eq in G. rewrite G. discriminate. }
    destruct (this_clusters this) as [old|] eqn:Eo; [|contradiction].
    injection E as ->. pose proof (wf_refs W Eo). simpl in *. lia.
Qed.

(** ** Which viewport the returned list belongs to *)

Lemma cluster_same_view (this : FasterSuperClusterAlgorithm) (i j : AlgorithmInput) :
  getZoom (input_map i) = getZoom (input_map j) ->
  getBoundingBox (input_map i) = getBoundingBox (input_map j) ->
  cluster this i = cluster this j.
Proof. unfold cluster. intros -> ->. reflexivity. Qed.

Lemma list_from_viewport_calculate
    (this : FasterSuperClusterAlgorithm) (input : AlgorithmInput) :
  list_from_viewport this -> list_from_viewport (snd (calculate this input)).
Proof.
  intros J arr. destruct (changedAtGate this input) eqn:G.
  - rewrite (calculate_recomputes _ _ G). simpl. intro E. injection E as <-.
    exists (input_map input). split; [reflexivity|]. left. reflexivity.
  - rewrite (calculate_unchanged _ _ G). simpl. intro E.
    destruct (J arr E) as (m & Hi & Hv). exists m. split; [exact Hi|].
    apply changedAtGate_false in G as [_ G]. unfold viewportCheck in G. simpl in G.
    destruct (zoom_gtb (zoom (this_state this)) (maxZoom this)) eqn:Zo;
      destruct (number_gtb (getZoom (input_map input)) (maxZoom this)) eqn:Zn;
      simpl in G.
    + right. split; [|reflexivity].
      destruct Hv as [Hv|[Hv _]]; [|exact Hv]. rewrite Hv in Zo. exact Zo.
    + apply negb_false_iff, deepEqual_state_eq in G.
      destruct Hv as [Hv|_].
      * left. transitivity (this_state this); [symmetry; exact G | exact Hv].
      * rewrite G in Zo. simpl in Zo. congruence.
    + apply negb_false_iff, deepEqual_state_eq in G.
      destruct Hv as [Hv|[_ Hv]]; [|discriminate Hv].
      left. transitivity (this_state this); [symmetry; exact G | exact Hv].
    + apply negb_false_iff, deepEqual_state_eq in G.
      destruct Hv as [Hv|[_ Hv]]; [|discriminate Hv].
      left. transitivity (this_state this); [symmetry; exact G | exact Hv].
Qed.

Lemma reachable_list_from_viewport (mz : number) (sc : SuperCluster)
    (this : FasterSuperClusterAlgorithm) :
  reachable mz sc this -> list_from_viewport this.
Proof.
  induction 1 as [|this input _ IH].
  - intros arr E. discriminate E.
  - apply list_from_viewport_calculate. exact IH.
Qed.

Lemma calculate_list_of_viewport
    (mz : number) (sc : SuperCluster) (history : list AlgorithmInput) (input : AlgorithmInput) :
  let this' := snd (calculate (started mz sc history) input) in
  exists arr m,
    clusters (fst (calculate (started mz sc history) input)) = Some arr /\
    items arr = cluster this' (with_map input m) /\
    ((getZoom m = getZoom (input_map input) /\
      getBoundingBox m = getBoundingBox (input_map input)) \/
     ((mz < getZoom m)%Qc /\ (mz < getZoom (input_map input))%Qc)).
Proof.
  intro this'.
  assert (R : reachable mz sc this')
    by (apply reachable_calculate, run_reachable, reachable_new).
  pose proof (reachable_well_formed R) as W.
  pose proof (reachable_list_from_viewport R) as J.
  assert (M : this_markers this' = Some (input_markers input)) by apply calculate_markers.
  assert (S : this_state this' = snapshot input) by apply calculate_state.
  rewrite calculate_returns_stored. fold this'.
  destruct (this_clusters this') as [arr|] eqn:E.
  - destruct (J arr E) as (m & Hi & Hv). exists arr, m. split; [reflexivity|].
    split; [exact Hi|]. rewrite S, (wf_maxZoom W) in Hv.
    destruct Hv as [Hv|[H1 H2]].
    + left. pose proof (f_equal zoom Hv) as Hz. pose proof (f_equal boundingBox Hv) as Hb.
      simpl in Hz, Hb. injection Hz as Hz. split; symmetry; assumption.
    + right. simpl in H2. apply number_gtb_lt in H1, H2. auto.
  - exfalso. apply (wf_clusters W); [rewrite M; discriminate | exact E].
Qed.


(** X6: at or below [maxZoom] the returned list is never stale: it is what
    the index, loaded with the call's markers, gives for the call's own
    viewport, whether the call recomputed it or not. *)
Theorem returned_list_current_below_maxZoom
    (mz : number) (sc : SuperCluster) (history : list AlgorithmInput) (input : AlgorithmInput) :
  (getZoom (input_map input) <= mz)%Qc ->
  let '(out, this') := calculate (started mz sc history) input in
  exists arr, clusters out = Some arr /\ items arr = cluster this' input.
Proof.
  intro Hz. pose proof (calculate_list_of_viewport mz sc history input) as H.
  destruct (calculate (started mz sc history) input) as [out this']. simpl in *.
  destruct H as (arr & m & Ho & Hi & [[E1 E2]|[_ Hn]]).
  - exists arr. split; [exact Ho|]. rewrite Hi. apply cluster_same_view; assumption.
  - exfalso. exact (Qlt_not_le _ _ Hn Hz).
Qed.

Lemma returned_list_current_below_maxZoom_witness :
  let '(out, this') :=
    calculate (started (number_of_Z 16) sampleIndex [inputA; inputA_moved]) inputA in
  exists arr, clusters out = Some arr /\ items arr = cluster this' inputA.
Proof.
  apply (@returned_list_current_below_maxZoom
           (number_of_Z 16) sampleIndex [inputA; inputA_moved] inputA).
  vm_compute. discriminate.
Defined.

(** ** Calls to the index, and the zoom they carry *)

Lemma leaf_lookups_aggregate_ids (this : FasterSuperClusterAlgorithm) (fs : list Feature) :
  leaf_lookups fs = map CallGetLeaves (aggregate_ids (map (transformCluster this) fs)).
Proof.
  unfold leaf_lookups, aggregate_ids. induction fs as [|f fs IH]; simpl; [reflexivity|].
  rewrite IH. unfold transformCluster.
  destruct f as [[x y] [marker|cid n]]; reflexivity.
Qed.

(** X7: with the markers unchanged, a viewport that differs from the stored
    one, unless both lie above [maxZoom], makes the call query the index
    again without reloading it, and return what [cluster] gives for the new
    viewport. *)
Theorem viewport_change_requeries
    (this : FasterSuperClusterAlgorithm) (input : AlgorithmInput) (previous : number) :
  deepEqual_markers (input_markers input) (this_markers this) = true ->
  zoom (this_state this) = Some previous ->
  this_state this <> snapshot input ->
  (previous <= maxZoom this)%Qc \/ (getZoom (input_map input) <= maxZoom this)%Qc ->
  let '(out, this') := calculate this input in
  superCluster this' = superCluster this /\
  this_markers this' = this_markers this /\
  calls_issued this input = cluster_calls this input /\
  filter is_load (calls_issued this input) = [] /\
  clusters out = Some {| array_ref := next_ref this; items := cluster this input |}.
Proof.
  intros Hm Hz Hs Hle.
  assert (V : viewportCheck this (snapshot input) false = true).
  { unfold viewportCheck. simpl. rewrite Hz. simpl.
    assert (B : number_gtb previous (maxZoom this)
                && number_gtb (getZoom (input_map input)) (maxZoom this) = false).
    { apply andb_false_iff. destruct Hle as [H|H]; [left|right];
        apply not_true_is_false; intro N; apply number_gtb_lt in N;
        exact (Qlt_not_le _ _ N H). }
    rewrite B. apply negb_true_iff, not_true_is_false. intro E.
    apply deepEqual_state_eq in E. contradiction. }
  assert (G : changedAtGate this input = true).
  { unfold changedAtGate. rewrite (syncMarkers_same _ _ Hm). exact V. }
  rewrite calls_issued_eq, G, Hm, (syncMarkers_same _ _ Hm). simpl app.
  rewrite cluster_calls_loads.
  rewrite (calculate_recomputes _ _ G), (syncMarkers_same _ _ Hm). simpl.
  repeat split.
Qed.

Lemma viewport_change_requeries_witness :
  let this := snd (calculate engine0 inputA) in
  let '(out, this') := calculate this inputA_moved in
  superCluster this' = superCluster this /\
  this_markers this' = this_markers this /\
  calls_issued this inputA_moved = cluster_calls this inputA_moved /\
  filter is_load (calls_issued this inputA_moved) = [] /\
  clusters out = Some {| array_ref := next_ref this; items := cluster this inputA_moved |}.
Proof.
  apply (@viewport_change_requeries (snd (calculate engine0 inputA)) inputA_moved (num 3)).
  - vm_compute. reflexivity.
  - reflexivity.
  - intro E. vm_compute in E. discriminate E.
  - left. vm_compute. discriminate.
Defined.

(** X8: the index calls of one call of [calculate], in order: a load when
    the markers differ; then, when the call recomputes, one query for the
    clusters of the viewport and one leaf lookup for each aggregate of the
    returned list, in the order of the list.  A load is always followed by
    the query. *)
Theorem index_calls_of_a_call (this : FasterSuperClusterAlgorithm) (input : AlgorithmInput) :
  let '(out, this') := calculate this input in
  calls_issued this input =
    (if deepEqual_markers (input_markers input) (this_markers this) then []
     else [CallLoad (map toPoint (input_markers input))]) ++
    (if changedAtGate this input
     then CallGetClusters (getBoundingBox (input_map input))
                          (Math_round (getZoom (input_map input)))
          :: map CallGetLeaves
                 (aggregate_ids (match clusters out with Some arr => items arr | None => [] end))
     else []) /\
  (if deepEqual_markers (input_markers input) (this_markers this) then True
   else changedAtGate this input = true).
Proof.
  rewrite calls_issued_eq. destruct (changedAtGate this input) eqn:G.
  - rewrite (calculate_recomputes _ _ G). simpl. split.
    + f_equal. unfold cluster_calls. f_equal.
      apply (leaf_lookups_aggregate_ids
               (set_state (snd (syncMarkers this input)) (snapshot input))).
    + destruct (deepEqual_markers _ _); auto.
  - rewrite (calculate_unchanged _ _ G). split; [reflexivity|].
    apply changedAtGate_false in G as [-> _]. exact I.
Qed.

(** X9: the coordinate order survives the way through the index.  A marker is
    loaded as [[lng, lat]]; an aggregate that the index reports at those
    coordinates is placed at the marker's position, with the identifier of
    the aggregate and the markers of all its leaves as members. *)
Theorem aggregate_at_loaded_coordinates
    (this : FasterSuperClusterAlgorithm) (marker : Marker) (i : Z) (n : nat) :
  let c := transformCluster this {| coordinates := point_coordinates (toPoint marker);
                                    properties := ClusterProperties i n |} in
  position c = getPosition marker /\
  id c = Some i /\
  markers c = map (@point_marker) (getLeaves (superCluster this) i Infinity) /\
  count c = length (getLeaves (superCluster this) i Infinity).
Proof.
  cbv zeta. unfold transformCluster, count. simpl.
  destruct (getPosition marker) as [la lo]. simpl.
  repeat split. apply length_map.
Qed.

Lemma getClusters_calls_of_a_call (this : FasterSuperClusterAlgorithm) (input : AlgorithmInput) :
  zoom (this_state (snd (calculate this input))) = Some (getZoom (input_map input)) /\
  filter is_getClusters (calls_issued this input) =
    if changedAtGate this input
    then [CallGetClusters (getBoundingBox (input_map input))
                          (Math_round (getZoom (input_map input)))]
    else [].
Proof.
  rewrite calculate_state, calls_issued_eq, filter_app. split; [reflexivity|].
  assert (L : filter is_getClusters
                (if deepEqual_markers (input_markers input) (this_markers this) then []
                 else [CallLoad (map toPoint (input_markers input))]) = [])
    by (destruct (deepEqual_markers _ _); reflexivity).
  rewrite L. simpl.
  destruct (changedAtGate this input); [apply cluster_calls_queries | reflexivity].
Qed.

Lemma Math_round_integer (k : Z) : Math_round (number_of_Z k) = k.
Proof.
  unfold Math_round, number_of_Z, num.
  assert (E : (this (Q2Qc (inject_Z k)) + (1 # 2) == inject_Z k + (1 # 2))%Q).
  { apply Qplus_comp; [apply Qred_correct | reflexivity]. }
  rewrite (Qfloor_comp _ _ E). unfold Qfloor, Qplus, inject_Z. simpl.
  replace (k * 2 + 1)%Z with (1 + k * 2)%Z by lia.
  rewrite Z.div_add by lia. reflexivity.
Qed.

Lemma Math_round_bounds (x : number) :
  (inject_Z (Math_round x) - (1 # 2) <= x)%Q /\ (x < inject_Z (Math_round x) + (1 # 2))%Q.
Proof.
  unfold Math_round. pose proof (Qfloor_le (x + (1 # 2))%Q) as L.
  pose proof (Qlt_floor (x + (1 # 2))%Q) as U.
  rewrite inject_Z_plus in U. split.
  - apply (Qplus_le_l _ _ (1 # 2)). ring_simplify. ring_simplify in L. exact L.
  - apply (Qplus_lt_l _ _ (1 # 2)).
    setoid_replace (inject_Z (Qfloor (x + (1 # 2))) + (1 # 2) + (1 # 2))%Q
      with (inject_Z (Qfloor (x + (1 # 2))) + inject_Z 1)%Q by ring.
    exact U.
Qed.

(** X10: when a call queries the index, it does so once, at the integer
    nearest to the zoom of the map (halves upwards), which is at most one half
    away from it. *)
Theorem queried_zoom_nearest_integer
    (this : FasterSuperClusterAlgorithm) (input : AlgorithmInput) :
  let z := getZoom (input_map input) in
  let q := Math_round z in
  filter is_getClusters (calls_issued this input) =
    (if changedAtGate this input
     then [CallGetClusters (getBoundingBox (input_map input)) q] else []) /\
  (inject_Z q - (1 # 2) <= z)%Q /\ (z < inject_Z q + (1 # 2))%Q.
Proof.
  cbv zeta. split; [apply getClusters_calls_of_a_call | apply Math_round_bounds].
Qed.

(** X11: for a map at an integer zoom level [k], the snapshot keeps [k] and
    the index, when queried, is queried at [k]: the zoom compared and the zoom
    queried are then the same number. *)
Theorem integer_zoom_kept_and_queried
    (this : FasterSuperClusterAlgorithm) (ms : list Marker)
    (bounds : LatLngBoundsLiteral) (k : Z) :
  let input := {| input_markers := ms;
                  input_map := {| getZoom := number_of_Z k; getBounds := bounds |} |} in
  let '(out, this') := calculate this input in
  zoom (this_state this') = Some (number_of_Z k) /\
  Math_round (getZoom (input_map input)) = k /\
  filter is_getClusters (calls_issued this input) =
    (if changedAtGate this input
     then [CallGetClusters (getBoundingBox (input_map input)) k] else []).
Proof.
  intro input. pose proof (getClusters_calls_of_a_call this input) as [S Q].
  destruct (calculate this input) as [out this']. simpl in S.
  split; [exact S|]. split; [apply Math_round_integer|].
  rewrite Q. simpl. rewrite Math_round_integer. reflexivity.
Qed.

(** ** The shape of the returned clusters *)

Lemma cluster_shapes (this : FasterSuperClusterAlgorithm) (input : AlgorithmInput) :
  Forall (fun c =>
            (exists marker, c = leaf marker) \/
            (exists i, id c = Some i /\
                       markers c = map (@point_marker) (getLeaves (superCluster this) i Infinity)))
         (cluster this input).
Proof.
  unfold cluster. apply Forall_forall. intros c H. apply in_map_iff in H as (f & <- & _).
  unfold transformCluster. destruct f as [[x y] [marker|cid n]]; simpl.
  - left. exists marker. reflexivity.
  - right. exists cid. auto.
Qed.

(** X12: every cluster of a returned list is either the leaf of one marker
    (no identifier, that marker alone, at its position, count 1) or an
    aggregate with an identifier whose members are the markers of the leaves
    that the index, as loaded after the call, reports for that identifier.
    This holds for lists that are returned again without recomputation,
    too. *)
Theorem returned_clusters_leaf_or_aggregate
    (mz : number) (sc : SuperCluster) (history : list AlgorithmInput) (input : AlgorithmInput) :
  let '(out, this') := calculate (started mz sc history) input in
  exists arr,
    clusters out = Some arr /\
    Forall (fun c =>
              (id c = None /\ count c = 1 /\
               exists marker, markers c = [marker] /\ position c = getPosition marker) \/
              (exists i, id c = Some i /\
                 markers c = map (@point_marker) (getLeaves (superCluster this') i Infinity) /\
                 count c = length (getLeaves (superCluster this') i Infinity)))
           (items arr).
Proof.
  pose proof (calculate_list_of_viewport mz sc history input) as H.
  destruct (calculate (started mz sc history) input) as [out this']. simpl in H.
  destruct H as (arr & m & Ho & Hi & _). exists arr. split; [exact Ho|].
  rewrite Hi. eapply Forall_impl; [|apply cluster_shapes].
  intros c [[marker ->]|(i & E1 & E2)].
  - left. simpl. repeat split. exists marker. auto.
  - right. exists i. unfold count. rewrite E2, length_map. auto.
Qed.
